(** * ScenarioSelectorControl: the scenario selector panel of WebGL-Orbiter

    A shallow embedding of [src/ScenarioSelectorControl.tsx] and the
    properties of its preset-click callback.

    Numbers.  The component computes with JavaScript numbers.  They are
    idealised here as the real numbers of the Standard Library: [Math.PI] is
    [PI], [Math.sin] and [Math.cos] are [sin] and [cos], and rounding is not
    modelled.  [ignitionCount] is an integer counter and is kept in [Z]. *)

From Stdlib Require Import Reals Lra ZArith String List.
Import ListNotations.

Local Open Scope R_scope.

(** ** three.js vectors and quaternions

    [THREE.Vector3] and [THREE.Quaternion] belong to the three.js library.
    Only the methods the component calls are given, each by the arithmetic
    three.js performs.  The methods mutate their receiver and return it; the
    component only ever calls them on freshly built or cloned objects, so
    they are functions from the old value to the new one. *)

Module Vector3.

Record t : Type := mk { x : R; y : R; z : R }.

(** [new THREE.Vector3()] *)
Definition zero : t := mk 0 0 0.

(** [v.multiplyScalar(s)] *)
Definition multiplyScalar (v : t) (s : R) : t :=
  mk (x v * s) (y v * s) (z v * s).

(** [v.length()] *)
Definition length (v : t) : R :=
  sqrt (x v * x v + y v * y v + z v * z v).

End Vector3.

Module Quaternion.

Record t : Type := mk { x : R; y : R; z : R; w : R }.

(** [q.clone()] *)
Definition clone (q : t) : t := mk (x q) (y q) (z q) (w q).

(** [q.setFromAxisAngle(axis, angle)] *)
Definition setFromAxisAngle (axis : Vector3.t) (angle : R) : t :=
  let halfAngle := angle / 2 in
  let s := sin halfAngle in
  mk (Vector3.x axis * s) (Vector3.y axis * s) (Vector3.z axis * s)
     (cos halfAngle).

(** [q.multiplyQuaternions(a, b)] *)
Definition multiplyQuaternions (a b : t) : t :=
  let qax := x a in let qay := y a in let qaz := z a in let qaw := w a in
  let qbx := x b in let qby := y b in let qbz := z b in let qbw := w b in
  mk (qax * qbw + qaw * qbx + qay * qbz - qaz * qby)
     (qay * qbw + qaw * qby + qaz * qbx - qax * qbz)
     (qaz * qbw + qaw * qbz + qax * qby - qay * qbx)
     (qaw * qbw - qax * qbx - qay * qby - qaz * qbz).

(** [q.multiply(p)]: the receiver becomes [q * p]. *)
Definition multiply (q p : t) : t := multiplyQuaternions q p.

(** Squared norm; a quaternion is a unit quaternion when it is 1. *)
Definition lengthSq (q : t) : R :=
  x q * x q + y q * y q + z q * z q + w q * w q.

End Quaternion.

(** [v.applyQuaternion(q)]: the product [q * v * conj q]. *)
Definition applyQuaternion (v : Vector3.t) (q : Quaternion.t) : Vector3.t :=
  let x := Vector3.x v in let y := Vector3.y v in let z := Vector3.z v in
  let qx := Quaternion.x q in let qy := Quaternion.y q in
  let qz := Quaternion.z q in let qw := Quaternion.w q in
  let ix := qw * x + qy * z - qz * y in
  let iy := qw * y + qz * x - qx * z in
  let iz := qw * z + qx * y - qy * x in
  let iw := - qx * x - qy * y - qz * z in
  Vector3.mk (ix * qw + iw * - qx + iy * - qz - iz * - qy)
             (iy * qw + iw * - qy + iz * - qx - ix * - qz)
             (iz * qw + iw * - qz + ix * - qy - iy * - qx).

(** The rotations of space the quaternions are checked against: by [theta]
    about the X, the Y and the Z axis, counter-clockwise seen from the tip of
    the axis. *)
Definition rotateX (theta : R) (v : Vector3.t) : Vector3.t :=
  Vector3.mk (Vector3.x v)
    (Vector3.y v * cos theta - Vector3.z v * sin theta)
    (Vector3.y v * sin theta + Vector3.z v * cos theta).

Definition rotateY (theta : R) (v : Vector3.t) : Vector3.t :=
  Vector3.mk (Vector3.x v * cos theta + Vector3.z v * sin theta)
    (Vector3.y v)
    (- Vector3.x v * sin theta + Vector3.z v * cos theta).

Definition rotateZ (theta : R) (v : Vector3.t) : Vector3.t :=
  Vector3.mk (Vector3.x v * cos theta - Vector3.y v * sin theta)
    (Vector3.x v * sin theta + Vector3.y v * cos theta)
    (Vector3.z v).

(** What "rotated by a quaternion" means, written as the matrix of
    [v |-> q v conj(q)] applied to the coordinates of [v]; for a unit
    quaternion it is the rotation matrix of [q].  The position the callback
    assigns is checked against it. *)
Definition rotateByQuaternion (q : Quaternion.t) (v : Vector3.t) : Vector3.t :=
  let qx := Quaternion.x q in let qy := Quaternion.y q in
  let qz := Quaternion.z q in let qw := Quaternion.w q in
  let vx := Vector3.x v in let vy := Vector3.y v in let vz := Vector3.z v in
  Vector3.mk
    ((qw * qw + qx * qx - qy * qy - qz * qz) * vx
     + 2 * (qx * qy - qw * qz) * vy + 2 * (qx * qz + qw * qy) * vz)
    (2 * (qx * qy + qw * qz) * vx
     + (qw * qw - qx * qx + qy * qy - qz * qz) * vy
     + 2 * (qy * qz - qw * qx) * vz)
    (2 * (qx * qz - qw * qy) * vx + 2 * (qy * qz + qw * qx) * vy
     + (qw * qw - qx * qx - qy * qy + qz * qz) * vz).

(** ** The celestial-body model ([./CelestialBody])

    The component imports [AU], [AxisAngleQuaternion] and the class
    [CelestialBody] from a module that is not part of this file. *)

(** Modelled from the spec: [AxisAngleQuaternion(x, y, z, angle)] of
    [./CelestialBody] is missing; by its name and by the spec ("rotate around
    Z by ...", "rotation about X") it is the quaternion of the rotation by
    [angle] about the axis [(x, y, z)]. *)
Definition AxisAngleQuaternion (x y z angle : R) : Quaternion.t :=
  Quaternion.setFromAxisAngle (Vector3.mk x y z) angle.

(** The identity of a [CelestialBody] object, as returned by [findBody]. *)
Definition BodyRef : Type := nat.

Module CelestialBody.

(** Modelled from the spec: the class [CelestialBody] is missing; the spec
    lists its state as a parent reference, a position, an orientation
    quaternion, an angular velocity, a cumulative delta-v and an ignition
    count.  [velocity] is what the orbital-velocity initializer is for. *)
Record t : Type := mk {
  parent : option BodyRef;
  position : Vector3.t;
  velocity : Vector3.t;
  quaternion : Quaternion.t;
  angularVelocity : Vector3.t;
  totalDeltaV : R;
  ignitionCount : Z
}.

(** Modelled from the spec: [setParent] of the missing class sets the
    parent reference. *)
Definition setParent (a : BodyRef) (b : t) : t :=
  mk (Some a) (position b) (velocity b) (quaternion b) (angularVelocity b)
     (totalDeltaV b) (ignitionCount b).

Definition set_position (v : Vector3.t) (b : t) : t :=
  mk (parent b) v (velocity b) (quaternion b) (angularVelocity b)
     (totalDeltaV b) (ignitionCount b).

Definition set_velocity (v : Vector3.t) (b : t) : t :=
  mk (parent b) (position b) v (quaternion b) (angularVelocity b)
     (totalDeltaV b) (ignitionCount b).

Definition set_quaternion (q : Quaternion.t) (b : t) : t :=
  mk (parent b) (position b) (velocity b) q (angularVelocity b)
     (totalDeltaV b) (ignitionCount b).

Definition set_angularVelocity (v : Vector3.t) (b : t) : t :=
  mk (parent b) (position b) (velocity b) (quaternion b) v
     (totalDeltaV b) (ignitionCount b).

Definition set_totalDeltaV (d : R) (b : t) : t :=
  mk (parent b) (position b) (velocity b) (quaternion b) (angularVelocity b)
     d (ignitionCount b).

Definition set_ignitionCount (n : Z) (b : t) : t :=
  mk (parent b) (position b) (velocity b) (quaternion b) (angularVelocity b)
     (totalDeltaV b) n.

End CelestialBody.

(** What the component takes from outside: the constant [AU], the static
    lookup [CelestialBody.findBody] ([None] is JavaScript's [null]) and the
    method [setOrbitingVelocity], of which the spec only says that it is the
    orbital-velocity initializer; it is an arbitrary update of its receiver
    here. *)
Record Env : Type := mkEnv {
  AU : R;
  findBody : string -> option BodyRef;
  setOrbitingVelocity :
    R -> Quaternion.t -> CelestialBody.t -> CelestialBody.t
}.

(** ** The component *)

(** One entry of the preset list (lines 74-75); a [?] field is an option. *)
Record Scenario : Type := mkScenario {
  title : string;
  parent : string;
  semimajor_axis : R;
  eccentricity : option R;
  rotation : option Quaternion.t;
  ascending_node : option R
}.

(** The preset list of [render] (lines 68-73). *)
Definition scenarios (AU : R) : list Scenario :=
  [ mkScenario "Earth orbit" "earth" (10000 / AU) None None None;
    mkScenario "Moon orbit" "moon" (3000 / AU) None None None;
    mkScenario "Mars orbit" "mars" (5000 / AU) None None None;
    mkScenario "Venus orbit" "venus" (10000 / AU) None None (Some PI);
    mkScenario "Jupiter orbit" "jupiter" (100000 / AU) None None None ].

(** The calls the component makes on its props and on its collaborators.
    [SetOrbitingVelocity] records its receiver as it is when the call is
    made.  [SetThrottle] and [ResetTime] are the props [setThrottle] and
    [resetTime] of [ScenarioSelectorControlProps]. *)
Inductive Call : Type :=
| SetParent (a : BodyRef)
| SetOrbitingVelocity (a : R) (q : Quaternion.t) (self : CelestialBody.t)
| SendMessage (msg : string)
| SetThrottle (throttle : R)
| ResetTime
| SetState (visible : bool).

(** What a click can change: the body handed to the callback and the
    component's React state [{visible: boolean}]. *)
Record World : Type := mkWorld {
  select_obj : CelestialBody.t;
  visible : bool
}.

(** A computation returns a value, the new world and the calls it made, in
    order. *)
Definition M (A : Type) : Type := World -> A * World * list Call.

Definition ret {A : Type} (a : A) : M A := fun w => (a, w, []).

Definition bind {A B : Type} (m : M A) (k : A -> M B) : M B :=
  fun w =>
    let '(a, w1, c1) := m w in
    let '(b, w2, c2) := k a w1 in
    (b, w2, c1 ++ c2).

Notation "x <- m ;; k" := (bind m (fun x => k))
  (at level 61, m at next level, right associativity).
Notation "m ;; k" := (bind m (fun _ => k))
  (at level 61, right associativity).

Definition result {A : Type} (r : A * World * list Call) : A := fst (fst r).
Definition world {A : Type} (r : A * World * list Call) : World :=
  snd (fst r).
Definition calls {A : Type} (r : A * World * list Call) : list Call := snd r.

(** Read and update the body the callback received. *)
Definition get_obj : M CelestialBody.t := fun w => (select_obj w, w, []).

Definition update_obj (f : CelestialBody.t -> CelestialBody.t) : M unit :=
  fun w => (tt, mkWorld (f (select_obj w)) (visible w), []).

Definition call (c : Call) : M unit := fun w => (tt, w, [c]).

(** [select_obj.setParent(parent)] *)
Definition setParent (a : BodyRef) : M unit :=
  call (SetParent a) ;; update_obj (CelestialBody.setParent a).

(** [select_obj.setOrbitingVelocity(a, q)] *)
Definition call_setOrbitingVelocity (env : Env) (a : R) (q : Quaternion.t)
  : M unit :=
  self <- get_obj ;;
  call (SetOrbitingVelocity a q self) ;;
  update_obj (setOrbitingVelocity env a q).

(** [this.props.sendMessage(msg)] *)
Definition sendMessage (msg : string) : M unit := call (SendMessage msg).

(** [this.setState({visible: v})] *)
Definition setState (v : bool) : M unit :=
  fun w => (tt, mkWorld (select_obj w) v, [SetState v]).

(** [n || 0.] on an optional number: an omitted field gives 0, and so does a
    field that is 0, the only other falsy real number. *)
Definition or_zero (n : option R) : R :=
  match n with
  | Some v => v
  | None => 0
  end.

(** The local [rotation] of the callback (lines 85, 87-91). *)
Definition scenario_rotation (scenario : Scenario) : Quaternion.t :=
  let ascending_node := or_zero (ascending_node scenario) in
  match rotation scenario with
  | Some q => q
  | None =>
      let rotation := AxisAngleQuaternion 0 0 1 (ascending_node - PI / 2) in
      Quaternion.multiply rotation (AxisAngleQuaternion 0 1 0 PI)
  end.

(** The callback a click hands to [this.props.onSelectScenario]
    (lines 84-109). *)
Definition select_callback (env : Env) (scenario : Scenario) : M bool :=
  let eccentricity := or_zero (eccentricity scenario) in
  let rotation := scenario_rotation scenario in
  match findBody env (parent scenario) with
  | None => ret false
  | Some parent =>
      setParent parent ;;
      update_obj (CelestialBody.set_position
        (applyQuaternion
           (Vector3.multiplyScalar (Vector3.mk 0 (1 - eccentricity) 0)
              (semimajor_axis scenario))
           rotation)) ;;
      update_obj (CelestialBody.set_quaternion (Quaternion.clone rotation)) ;;
      update_obj (fun b => CelestialBody.set_quaternion
        (Quaternion.multiply (CelestialBody.quaternion b)
           (AxisAngleQuaternion 1 0 0 (- PI / 2))) b) ;;
      update_obj (CelestialBody.set_angularVelocity Vector3.zero) ;;
      (* setThrottle(0); *)
      call_setOrbitingVelocity env (semimajor_axis scenario) rotation ;;
      update_obj (CelestialBody.set_totalDeltaV 0) ;;
      update_obj (CelestialBody.set_ignitionCount 0%Z) ;;
      (* resetTime(); *)
      sendMessage ("Scenario " ++ title scenario ++ " Loaded!") ;;
      setState false ;;
      ret true
  end.

(** The [onClick] handler of a preset (lines 83-84, 110): it hands the
    callback to the prop [onSelectScenario], which decides on which body the
    callback runs; [select_obj] of the world is that body. *)
Definition onClick (onSelectScenario : M bool -> M unit) (env : Env)
  (scenario : Scenario) : M unit :=
  onSelectScenario (select_callback env scenario).

(** The constructor's initial state (line 26). *)
Definition initial_visible : bool := false.

(** [onSetVisible] of the container (line 121). *)
Definition onSetVisible (v : bool) : M unit := setState v.

(** The method [setVisible] (lines 125-130); its body is commented out. *)
Definition setVisible (v : bool) : M unit := ret tt.

(** ** A sample environment

    [AU] in kilometres, a body table with the five parents of the preset
    list, and a velocity initializer that writes the velocity only.  It is
    used to run the callback on concrete inputs. *)

Definition sample_findBody (name : string) : option BodyRef :=
  if String.eqb name "earth" then Some 3%nat
  else if String.eqb name "moon" then Some 4%nat
  else if String.eqb name "mars" then Some 5%nat
  else if String.eqb name "venus" then Some 2%nat
  else if String.eqb name "jupiter" then Some 6%nat
  else None.

Definition sample_setOrbitingVelocity (a : R) (q : Quaternion.t)
  (b : CelestialBody.t) : CelestialBody.t :=
  CelestialBody.set_velocity
    (applyQuaternion (Vector3.multiplyScalar (Vector3.mk 1 0 0) (sqrt (/ a))) q)
    b.

Definition sample_env : Env :=
  mkEnv 149597871 sample_findBody sample_setOrbitingVelocity.

(** A rocket that has already flown: it has burnt delta-v, ignited twice and
    is tumbling. *)
Definition used_rocket : CelestialBody.t :=
  CelestialBody.mk (Some 3%nat) (Vector3.mk 1 0 0) (Vector3.mk 0 1 0)
    (Quaternion.mk 0 0 0 1) (Vector3.mk 0 0 1) 5 2%Z.

Definition open_panel : World := mkWorld used_rocket true.

Definition earth_orbit : Scenario :=
  mkScenario "Earth orbit" "earth" (10000 / 149597871) None None None.

Definition pluto_orbit : Scenario :=
  mkScenario "Pluto orbit" "pluto" (10000 / 149597871) None None None.

(** ** Frame conditions on the velocity initializer *)

Definition keeps_position (env : Env) : Prop :=
  forall a q b,
    CelestialBody.position (setOrbitingVelocity env a q b)
    = CelestialBody.position b.

Definition keeps_quaternion (env : Env) : Prop :=
  forall a q b,
    CelestialBody.quaternion (setOrbitingVelocity env a q b)
    = CelestialBody.quaternion b.

Definition keeps_angularVelocity (env : Env) : Prop :=
  forall a q b,
    CelestialBody.angularVelocity (setOrbitingVelocity env a q b)
    = CelestialBody.angularVelocity b.

(** The messages among a list of calls, in order. *)
Fixpoint messages (cs : list Call) : list string :=
  match cs with
  | [] => []
  | SendMessage msg :: cs' => msg :: messages cs'
  | _ :: cs' => messages cs'
  end.

(** ** Running the callback *)

(** The position the callback assigns (lines 96-97). *)
Definition orbit_position (scenario : Scenario) : Vector3.t :=
  applyQuaternion
    (Vector3.multiplyScalar
       (Vector3.mk 0 (1 - or_zero (eccentricity scenario)) 0)
       (semimajor_axis scenario))
    (scenario_rotation scenario).

(** The body as [setOrbitingVelocity] finds it (after line 100). *)
Definition body_at_call (scenario : Scenario) (p : BodyRef)
  (b : CelestialBody.t) : CelestialBody.t :=
  CelestialBody.mk (Some p) (orbit_position scenario)
    (CelestialBody.velocity b)
    (Quaternion.multiply (Quaternion.clone (scenario_rotation scenario))
       (AxisAngleQuaternion 1 0 0 (- PI / 2)))
    Vector3.zero (CelestialBody.totalDeltaV b) (CelestialBody.ignitionCount b).

(** ** The component driven by its events

    What reaches the component after its construction: a click on a preset,
    the container asking for a visibility through [onSetVisible], and a call
    of the method [setVisible]. *)

(** A prop [onSelectScenario] that runs the callback once, on the body of
    the world, and drops its result (the prop returns [void]). *)
Definition run_once (callback : M bool) : M unit := callback ;; ret tt.

Inductive Action : Type :=
| Click (scenario : Scenario)
| ContainerSetVisible (v : bool)
| MethodSetVisible (v : bool).

Definition perform (env : Env) (a : Action) : M unit :=
  match a with
  | Click scenario => onClick run_once env scenario
  | ContainerSetVisible v => onSetVisible v
  | MethodSetVisible v => setVisible v
  end.

Fixpoint run (env : Env) (l : list Action) : M unit :=
  match l with
  | [] => ret tt
  | a :: l' => perform env a ;; run env l'
  end.

(** A click whose parent name [findBody] resolves. *)
Definition resolves (env : Env) (a : Action) : bool :=
  match a with
  | Click scenario =>
      match findBody env (parent scenario) with
      | Some _ => true
      | None => false
      end
  | _ => false
  end.

(** The container asking to show the panel. *)
Definition opens (a : Action) : bool :=
  match a with
  | ContainerSetVisible true => true
  | _ => false
  end.

Lemma select_callback_unresolved env scenario w :
  findBody env (parent scenario) = None ->
  select_callback env scenario w = (false, w, []).
Proof.
  intros Hnone. unfold select_callback. rewrite Hnone. reflexivity.
Qed.

Lemma select_callback_resolved env scenario w p :
  findBody env (parent scenario) = Some p ->
  select_callback env scenario w =
  (true,
   mkWorld
     (CelestialBody.set_ignitionCount 0%Z
        (CelestialBody.set_totalDeltaV 0
           (setOrbitingVelocity env (semimajor_axis scenario)
              (scenario_rotation scenario)
              (body_at_call scenario p (select_obj w)))))
     false,
   [ SetParent p;
     SetOrbitingVelocity (semimajor_axis scenario)
       (scenario_rotation scenario)
       (body_at_call scenario p (select_obj w));
     SendMessage ("Scenario " ++ title scenario ++ " Loaded!");
     SetState false ]).
Proof.
  intros Hsome. unfold select_callback. rewrite Hsome. reflexivity.
Qed.

Lemma sample_env_keeps_position : keeps_position sample_env.
Proof. intros a q b. reflexivity. Qed.

Lemma sample_env_keeps_quaternion : keeps_quaternion sample_env.
Proof. intros a q b. reflexivity. Qed.

Lemma sample_env_keeps_angularVelocity : keeps_angularVelocity sample_env.
Proof. intros a q b. reflexivity. Qed.

(** ** Quaternion algebra *)

Lemma clone_eq (q : Quaternion.t) : Quaternion.clone q = q.
Proof. destruct q. reflexivity. Qed.

Lemma lengthSq_multiply (a b : Quaternion.t) :
  Quaternion.lengthSq (Quaternion.multiply a b)
  = Quaternion.lengthSq a * Quaternion.lengthSq b.
Proof.
  destruct a, b. unfold Quaternion.lengthSq, Quaternion.multiply,
    Quaternion.multiplyQuaternions. simpl. ring.
Qed.

Lemma sin_cos_unit (t : R) : sin t * sin t + cos t * cos t = 1.
Proof. generalize (sin2_cos2 t). unfold Rsqr. trivial. Qed.

Lemma lengthSq_AxisAngleQuaternion (x y z angle : R) :
  x * x + y * y + z * z = 1 ->
  Quaternion.lengthSq (AxisAngleQuaternion x y z angle) = 1.
Proof.
  intros Haxis.
  unfold Quaternion.lengthSq, AxisAngleQuaternion, Quaternion.setFromAxisAngle.
  simpl.
  replace (x * sin (angle / 2) * (x * sin (angle / 2))
           + y * sin (angle / 2) * (y * sin (angle / 2))
           + z * sin (angle / 2) * (z * sin (angle / 2))
           + cos (angle / 2) * cos (angle / 2))
    with ((x * x + y * y + z * z) * (sin (angle / 2) * sin (angle / 2))
          + cos (angle / 2) * cos (angle / 2)) by ring.
  rewrite Haxis, Rmult_1_l. apply sin_cos_unit.
Qed.

(** Rotating by a product is rotating by the right factor first. *)
Lemma applyQuaternion_multiply (v : Vector3.t) (a b : Quaternion.t) :
  applyQuaternion v (Quaternion.multiply a b)
  = applyQuaternion (applyQuaternion v b) a.
Proof.
  destruct v, a, b.
  unfold applyQuaternion, Quaternion.multiply, Quaternion.multiplyQuaternions.
  simpl. f_equal; ring.
Qed.

(** [applyQuaternion] is the matrix of the quaternion applied to the
    vector. *)
Lemma applyQuaternion_matrix (v : Vector3.t) (q : Quaternion.t) :
  applyQuaternion v q = rotateByQuaternion q v.
Proof.
  destruct v, q. unfold applyQuaternion, rotateByQuaternion. simpl.
  f_equal; ring.
Qed.

(** The squared length scales by the squared norm of the quaternion, twice. *)
Lemma applyQuaternion_lengthSq (v : Vector3.t) (q : Quaternion.t) :
  let r := applyQuaternion v q in
  Vector3.x r * Vector3.x r + Vector3.y r * Vector3.y r
  + Vector3.z r * Vector3.z r
  = Quaternion.lengthSq q * Quaternion.lengthSq q
    * (Vector3.x v * Vector3.x v + Vector3.y v * Vector3.y v
       + Vector3.z v * Vector3.z v).
Proof.
  destruct v, q. unfold applyQuaternion, Quaternion.lengthSq. simpl. ring.
Qed.

(** A unit quaternion preserves lengths. *)
Lemma applyQuaternion_length (v : Vector3.t) (q : Quaternion.t) :
  Quaternion.lengthSq q = 1 ->
  Vector3.length (applyQuaternion v q) = Vector3.length v.
Proof.
  intros Hunit. unfold Vector3.length.
  rewrite (applyQuaternion_lengthSq v q), Hunit. f_equal. ring.
Qed.

Lemma cos_of_half (t : R) :
  cos t = cos (t / 2) * cos (t / 2) - sin (t / 2) * sin (t / 2).
Proof. replace t with (2 * (t / 2)) at 1 by field. apply cos_2a. Qed.

Lemma sin_of_half (t : R) : sin t = 2 * sin (t / 2) * cos (t / 2).
Proof. replace t with (2 * (t / 2)) at 1 by field. apply sin_2a. Qed.

(** The axis-angle quaternions about the coordinate axes act as the
    rotations about those axes. *)
Lemma applyQuaternion_axisX (theta : R) (v : Vector3.t) :
  applyQuaternion v (AxisAngleQuaternion 1 0 0 theta) = rotateX theta v.
Proof.
  destruct v as [x y z].
  unfold applyQuaternion, AxisAngleQuaternion, Quaternion.setFromAxisAngle,
    rotateX. simpl.
  rewrite (cos_of_half theta), (sin_of_half theta).
  pose proof (sin_cos_unit (theta / 2)) as Hu.
  set (s := sin (theta / 2)) in *. set (c := cos (theta / 2)) in *.
  f_equal.
  - transitivity ((s * s + c * c) * x); [ring | rewrite Hu; ring].
  - ring.
  - ring.
Qed.

Lemma applyQuaternion_axisY (theta : R) (v : Vector3.t) :
  applyQuaternion v (AxisAngleQuaternion 0 1 0 theta) = rotateY theta v.
Proof.
  destruct v as [x y z].
  unfold applyQuaternion, AxisAngleQuaternion, Quaternion.setFromAxisAngle,
    rotateY. simpl.
  rewrite (cos_of_half theta), (sin_of_half theta).
  pose proof (sin_cos_unit (theta / 2)) as Hu.
  set (s := sin (theta / 2)) in *. set (c := cos (theta / 2)) in *.
  f_equal.
  - ring.
  - transitivity ((s * s + c * c) * y); [ring | rewrite Hu; ring].
  - ring.
Qed.

Lemma applyQuaternion_axisZ (theta : R) (v : Vector3.t) :
  applyQuaternion v (AxisAngleQuaternion 0 0 1 theta) = rotateZ theta v.
Proof.
  destruct v as [x y z].
  unfold applyQuaternion, AxisAngleQuaternion, Quaternion.setFromAxisAngle,
    rotateZ. simpl.
  rewrite (cos_of_half theta), (sin_of_half theta).
  pose proof (sin_cos_unit (theta / 2)) as Hu.
  set (s := sin (theta / 2)) in *. set (c := cos (theta / 2)) in *.
  f_equal.
  - ring.
  - ring.
  - transitivity ((s * s + c * c) * z); [ring | rewrite Hu; ring].
Qed.

Lemma scenario_rotation_default_unit (scenario : Scenario) :
  rotation scenario = None ->
  Quaternion.lengthSq (scenario_rotation scenario) = 1.
Proof.
  intros Hnone. unfold scenario_rotation. rewrite Hnone.
  rewrite lengthSq_multiply.
  rewrite !lengthSq_AxisAngleQuaternion by ring. ring.
Qed.

Lemma orbit_position_length (scenario : Scenario) :
  Quaternion.lengthSq (scenario_rotation scenario) = 1 ->
  0 <= semimajor_axis scenario * (1 - or_zero (eccentricity scenario)) ->
  Vector3.length (orbit_position scenario)
  = semimajor_axis scenario * (1 - or_zero (eccentricity scenario)).
Proof.
  intros Hunit Hpos. unfold orbit_position.
  rewrite applyQuaternion_length by exact Hunit.
  unfold Vector3.length, Vector3.multiplyScalar. simpl.
  set (e := or_zero (eccentricity scenario)) in *.
  set (a := semimajor_axis scenario) in *.
  replace (0 * a * (0 * a) + (1 - e) * a * ((1 - e) * a) + 0 * a * (0 * a))
    with ((a * (1 - e)) * (a * (1 - e))) by ring.
  apply sqrt_square. exact Hpos.
Qed.

(** The only [SetOrbitingVelocity] call of a successful click. *)
Lemma orbit_call_inv env scenario w p a q self :
  findBody env (parent scenario) = Some p ->
  In (SetOrbitingVelocity a q self) (calls (select_callback env scenario w)) ->
  a = semimajor_axis scenario /\ q = scenario_rotation scenario
  /\ self = body_at_call scenario p (select_obj w).
Proof.
  intros Hsome Hin. rewrite (select_callback_resolved _ _ _ _ Hsome) in Hin.
  simpl in Hin.
  destruct Hin as [Hc | [Hc | [Hc | [Hc | []]]]]; try discriminate.
  inversion Hc; subst. auto.
Qed.

(** No execution of the callback calls [setThrottle] or [resetTime]. *)
Lemma no_throttle_no_reset env scenario w :
  (forall t, ~ In (SetThrottle t) (calls (select_callback env scenario w)))
  /\ ~ In ResetTime (calls (select_callback env scenario w)).
Proof.
  destruct (findBody env (parent scenario)) as [p |] eqn:Hfind.
  - rewrite (select_callback_resolved _ _ _ _ Hfind). simpl.
    split; [intros t|]; intros [H | [H | [H | [H | []]]]]; discriminate.
  - rewrite (select_callback_unresolved _ _ _ Hfind). simpl.
    split; [intros t|]; intros [].
Qed.

(** ** Properties of the click callback and of the component *)

(** C1.  A click on a preset whose parent name [findBody] does not resolve
    returns [false] and changes nothing: the body handed to the callback
    (parent, position, quaternion, angular velocity, total delta-v, ignition
    count) is the one it was, no call is made, so no message is sent, and
    the panel's [visible] state is what it was. *)
Theorem unresolved_parent_rejected env scenario w :
  findBody env (parent scenario) = None ->
  let r := select_callback env scenario w in
  result r = false
  /\ select_obj (world r) = select_obj w
  /\ visible (world r) = visible w
  /\ calls r = []
  /\ messages (calls r) = [].
Proof.
  intros Hnone. cbv zeta.
  rewrite (select_callback_unresolved _ _ _ Hnone).
  repeat split.
Qed.

Lemma unresolved_parent_rejected_witness :
  result (select_callback sample_env pluto_orbit open_panel) = false
  /\ select_obj (world (select_callback sample_env pluto_orbit open_panel))
     = used_rocket
  /\ visible (world (select_callback sample_env pluto_orbit open_panel)) = true
  /\ calls (select_callback sample_env pluto_orbit open_panel) = []
  /\ messages (calls (select_callback sample_env pluto_orbit open_panel)) = [].
Proof.
  apply (unresolved_parent_rejected sample_env pluto_orbit open_panel).
  reflexivity.
Defined.

(** C2.  On a click with a resolvable parent the body's position is the
    vector [(0, 1 - eccentricity, 0)], multiplied by the preset's semimajor
    axis, which is [(0, (1 - eccentricity) * semimajor_axis, 0)], and rotated
    by the callback's rotation quaternion, an omitted eccentricity counting
    as 0: the body has that position when [setOrbitingVelocity] is called,
    and when the callback returns if [setOrbitingVelocity] leaves the
    position alone.  With the default rotation the vector is turned about Y
    by [PI] and then about Z by [ascending_node - PI / 2]. *)
Theorem position_assigned env scenario w p :
  findBody env (parent scenario) = Some p ->
  let r := select_callback env scenario w in
  let e := match eccentricity scenario with Some e => e | None => 0 end in
  let node := match ascending_node scenario with Some n => n | None => 0 end in
  let scaled := Vector3.mk 0 ((1 - e) * semimajor_axis scenario) 0 in
  let pos := rotateByQuaternion (scenario_rotation scenario) scaled in
  (forall a q self, In (SetOrbitingVelocity a q self) (calls r) ->
     CelestialBody.position self = pos)
  /\ (keeps_position env ->
      CelestialBody.position (select_obj (world r)) = pos)
  /\ (rotation scenario = None ->
      pos = rotateZ (node - PI / 2) (rotateY PI scaled)).
Proof.
  intros Hsome. cbv zeta.
  assert (Hpos : orbit_position scenario
                 = rotateByQuaternion (scenario_rotation scenario)
                     (Vector3.mk 0
                        ((1 - or_zero (eccentricity scenario))
                         * semimajor_axis scenario) 0)).
  { unfold orbit_position. rewrite applyQuaternion_matrix.
    unfold Vector3.multiplyScalar. simpl. f_equal. f_equal; ring. }
  split; [| split].
  - intros a q self Hin.
    destruct (orbit_call_inv _ _ _ _ _ _ _ Hsome Hin) as (_ & _ & ->).
    exact Hpos.
  - intros Hkeep. rewrite (select_callback_resolved _ _ _ _ Hsome).
    unfold world. simpl. rewrite Hkeep. exact Hpos.
  - intros Hnone. rewrite <- applyQuaternion_matrix.
    unfold scenario_rotation. rewrite Hnone.
    rewrite applyQuaternion_multiply.
    rewrite applyQuaternion_axisY, applyQuaternion_axisZ. reflexivity.
Qed.

Lemma position_assigned_witness :
  CelestialBody.position
    (select_obj (world (select_callback sample_env earth_orbit open_panel)))
  = Vector3.mk (10000 / 149597871) 0 0.
Proof.
  pose proof (position_assigned sample_env earth_orbit open_panel 3%nat
                eq_refl) as H.
  cbv zeta in H. destruct H as (_ & Hreturn & Hdefault).
  rewrite (Hreturn sample_env_keeps_position), (Hdefault eq_refl).
  unfold rotateZ, rotateY. simpl.
  rewrite sin_minus, cos_minus, sin_0, cos_0, sin_PI2, cos_PI2, sin_PI, cos_PI.
  f_equal; field.
Defined.

(** C3.  For each preset of the list, a click with a resolvable parent
    leaves the body at distance [semimajor_axis * (1 - eccentricity)] from
    the origin: the rotation is a unit quaternion and keeps the length of
    the vector it rotates.  [AU] is a positive length, and
    [setOrbitingVelocity] leaves the position alone. *)
Theorem preset_position_magnitude env scenario w p :
  0 < AU env ->
  In scenario (scenarios (AU env)) ->
  findBody env (parent scenario) = Some p ->
  keeps_position env ->
  Vector3.length
    (CelestialBody.position
       (select_obj (world (select_callback env scenario w))))
  = semimajor_axis scenario * (1 - or_zero (eccentricity scenario)).
Proof.
  intros HAU Hin Hsome Hkeep.
  rewrite (select_callback_resolved _ _ _ _ Hsome).
  unfold world. simpl. rewrite Hkeep. simpl.
  assert (Hk : forall k, 0 < k -> 0 <= k / AU env * (1 - 0)).
  { intros k Hk. apply Rmult_le_pos; [| lra].
    apply Rlt_le, Rdiv_lt_0_compat; assumption. }
  simpl in Hin.
  destruct Hin as [<- | [<- | [<- | [<- | [<- | []]]]]];
    (apply orbit_position_length;
     [ apply scenario_rotation_default_unit; reflexivity
     | simpl; apply Hk; lra ]).
Qed.

Lemma preset_position_magnitude_witness :
  Vector3.length
    (CelestialBody.position
       (select_obj (world (select_callback sample_env earth_orbit open_panel))))
  = 10000 / 149597871 * (1 - 0).
Proof.
  apply (preset_position_magnitude sample_env earth_orbit open_panel 3%nat).
  - simpl. lra.
  - left. reflexivity.
  - reflexivity.
  - exact sample_env_keeps_position.
Defined.



(** C5.  On a click with a resolvable parent the body's orientation is the
    callback's rotation multiplied on the right by the quaternion of the
    rotation by [- PI / 2] about the X axis, so it turns a vector about X by
    [- PI / 2] and then by the callback's rotation: the body has that
    orientation when [setOrbitingVelocity] is called, and when the callback
    returns if [setOrbitingVelocity] leaves the orientation alone. *)
Theorem quaternion_assigned env scenario w p :
  findBody env (parent scenario) = Some p ->
  let r := select_callback env scenario w in
  let ori :=
    Quaternion.multiply (scenario_rotation scenario)
      (AxisAngleQuaternion 1 0 0 (- PI / 2)) in
  (forall a q self, In (SetOrbitingVelocity a q self) (calls r) ->
     CelestialBody.quaternion self = ori)
  /\ (keeps_quaternion env ->
      CelestialBody.quaternion (select_obj (world r)) = ori)
  /\ (forall v, applyQuaternion v ori
                = applyQuaternion (rotateX (- PI / 2) v)
                    (scenario_rotation scenario)).
Proof.
  intros Hsome. cbv zeta. split; [| split].
  - intros a q self Hin.
    destruct (orbit_call_inv _ _ _ _ _ _ _ Hsome Hin) as (_ & _ & ->).
    simpl. rewrite clone_eq. reflexivity.
  - intros Hkeep. rewrite (select_callback_resolved _ _ _ _ Hsome).
    unfold world. simpl. rewrite Hkeep. simpl. rewrite clone_eq. reflexivity.
  - intros v. rewrite applyQuaternion_multiply, applyQuaternion_axisX.
    reflexivity.
Qed.

Lemma quaternion_assigned_witness :
  CelestialBody.quaternion
    (select_obj (world (select_callback sample_env earth_orbit open_panel)))
  = Quaternion.multiply (scenario_rotation earth_orbit)
      (AxisAngleQuaternion 1 0 0 (- PI / 2)).
Proof.
  apply (proj1 (proj2 (quaternion_assigned sample_env earth_orbit open_panel
                         3%nat eq_refl))).
  exact sample_env_keeps_quaternion.
Defined.

(** C6, as the code has it.  On a click with a resolvable parent
    [setOrbitingVelocity] is called once, on a body whose angular velocity
    is already zero and whose total delta-v and ignition count are still
    the old ones; those two are set to zero after the call.  When the
    callback returns, total delta-v and ignition count are zero, and so is
    the angular velocity if [setOrbitingVelocity] leaves it alone. *)
Theorem zeroing_around_orbit_call env scenario w p :
  findBody env (parent scenario) = Some p ->
  let r := select_callback env scenario w in
  (exists self,
     calls r = [ SetParent p;
                 SetOrbitingVelocity (semimajor_axis scenario)
                   (scenario_rotation scenario) self;
                 SendMessage ("Scenario " ++ title scenario ++ " Loaded!");
                 SetState false ]
     /\ CelestialBody.angularVelocity self = Vector3.zero
     /\ CelestialBody.totalDeltaV self
        = CelestialBody.totalDeltaV (select_obj w)
     /\ CelestialBody.ignitionCount self
        = CelestialBody.ignitionCount (select_obj w))
  /\ CelestialBody.totalDeltaV (select_obj (world r)) = 0
  /\ CelestialBody.ignitionCount (select_obj (world r)) = 0%Z
  /\ (keeps_angularVelocity env ->
      CelestialBody.angularVelocity (select_obj (world r)) = Vector3.zero).
Proof.
  intros Hsome. cbv zeta.
  rewrite (select_callback_resolved _ _ _ _ Hsome).
  split; [| split; [| split]].
  - eexists. split; [reflexivity |]. repeat split.
  - reflexivity.
  - reflexivity.
  - intros Hkeep. unfold world. simpl. rewrite Hkeep. reflexivity.
Qed.

Lemma zeroing_around_orbit_call_witness :
  CelestialBody.angularVelocity
    (select_obj (world (select_callback sample_env earth_orbit open_panel)))
  = Vector3.zero.
Proof.
  apply (proj2 (proj2 (proj2
           (zeroing_around_orbit_call sample_env earth_orbit open_panel 3%nat
              eq_refl)))).
  exact sample_env_keeps_angularVelocity.
Defined.

(** C6 as stated fails: the flown rocket still has its total delta-v of 5
    and its two ignitions when [setOrbitingVelocity] is called on it. *)
Lemma zeroing_before_orbit_call_counterexample :
  ~ (forall a q self,
       In (SetOrbitingVelocity a q self)
          (calls (select_callback sample_env earth_orbit open_panel)) ->
       CelestialBody.angularVelocity self = Vector3.zero
       /\ CelestialBody.totalDeltaV self = 0
       /\ CelestialBody.ignitionCount self = 0%Z).
Proof.
  intros Hall.
  rewrite (select_callback_resolved sample_env earth_orbit open_panel 3%nat
             eq_refl) in Hall.
  destruct (Hall _ _ _ (or_intror (or_introl eq_refl))) as (_ & _ & Hcount).
  simpl in Hcount. discriminate Hcount.
Qed.

(** C7.  A click with a resolvable parent returns [true], sends exactly one
    message through [sendMessage], the confirmation
    ['Scenario ' + title + ' Loaded!'], and closes the panel: the
    component's [visible] state becomes [false]. *)
Theorem resolved_click_confirms env scenario w p :
  findBody env (parent scenario) = Some p ->
  let r := select_callback env scenario w in
  result r = true
  /\ messages (calls r)
     = [("Scenario " ++ title scenario ++ " Loaded!")%string]
  /\ List.length (messages (calls r)) = 1%nat
  /\ visible (world r) = false.
Proof.
  intros Hsome. cbv zeta.
  rewrite (select_callback_resolved _ _ _ _ Hsome).
  repeat split.
Qed.

Lemma resolved_click_confirms_witness :
  result (select_callback sample_env earth_orbit open_panel) = true
  /\ messages (calls (select_callback sample_env earth_orbit open_panel))
     = ["Scenario Earth orbit Loaded!"%string]
  /\ List.length
       (messages (calls (select_callback sample_env earth_orbit open_panel)))
     = 1%nat
  /\ visible (world (select_callback sample_env earth_orbit open_panel))
     = false.
Proof.
  apply (resolved_click_confirms sample_env earth_orbit open_panel 3%nat).
  reflexivity.
Defined.

(** C8, as the code has it.  The props [setThrottle] and [resetTime] are
    declared and never called: in every execution of the click callback,
    whatever the environment, the preset and the world, neither appears
    among the calls made. *)
Theorem throttle_and_time_untouched env scenario w :
  (forall t, ~ In (SetThrottle t) (calls (select_callback env scenario w)))
  /\ ~ In ResetTime (calls (select_callback env scenario w)).
Proof. apply no_throttle_no_reset. Qed.

(** C8 as stated fails: no execution of the click callback calls
    [setThrottle] and [resetTime]. *)
Lemma throttle_and_time_counterexample :
  ~ (exists env scenario w,
       (exists t, In (SetThrottle t) (calls (select_callback env scenario w)))
       /\ In ResetTime (calls (select_callback env scenario w))).
Proof.
  intros (env & scenario & w & _ & Hreset).
  exact (proj2 (no_throttle_no_reset env scenario w) Hreset).
Qed.

(** C9.  The preset list has exactly five entries: earth at [10000 / AU],
    moon at [3000 / AU], mars at [5000 / AU], venus at [10000 / AU] and
    jupiter at [100000 / AU].  None gives an eccentricity or a rotation, so
    the eccentricity of every preset is 0 and its rotation is the default
    product of the Z and Y rotations; the venus preset has the ascending
    node [PI], which is not 0, and the others have none, which counts
    as 0. *)
Theorem preset_list (AU : R) :
  List.length (scenarios AU) = 5%nat
  /\ map (fun s => (title s, parent s, semimajor_axis s)) (scenarios AU)
     = [ ("Earth orbit"%string, "earth"%string, 10000 / AU);
         ("Moon orbit"%string, "moon"%string, 3000 / AU);
         ("Mars orbit"%string, "mars"%string, 5000 / AU);
         ("Venus orbit"%string, "venus"%string, 10000 / AU);
         ("Jupiter orbit"%string, "jupiter"%string, 100000 / AU) ]
  /\ Forall (fun s => eccentricity s = None /\ rotation s = None)
       (scenarios AU)
  /\ Forall (fun s => or_zero (eccentricity s) = 0) (scenarios AU)
  /\ Forall (fun s =>
               scenario_rotation s
               = Quaternion.multiply
                   (AxisAngleQuaternion 0 0 1
                      (or_zero (ascending_node s) - PI / 2))
                   (AxisAngleQuaternion 0 1 0 PI))
       (scenarios AU)
  /\ Forall (fun s =>
               if String.eqb (parent s) "venus"
               then ascending_node s = Some PI
                    /\ or_zero (ascending_node s) <> 0
               else ascending_node s = None
                    /\ or_zero (ascending_node s) = 0)
       (scenarios AU).
Proof.
  repeat split; repeat constructor. simpl. exact PI_neq0.
Qed.

(** C10.  The method [setVisible] does nothing: whatever its argument, the
    component's [visible] state and the rest of the world are unchanged and
    no call is made. *)
Theorem setVisible_noop (v : bool) (w : World) :
  world (setVisible v w) = w
  /\ visible (world (setVisible v w)) = visible w
  /\ calls (setVisible v w) = [].
Proof. repeat split. Qed.

(** ** Further properties of the click callback *)

(** X1.  The flag the callback returns tells whether anything happened: it
    is [true] exactly when [findBody] resolves the preset's parent; when it
    is [false] the world is untouched and no call was made, and when it is
    [true] the calls made are, in this order, [setParent] with the resolved
    body, [setOrbitingVelocity] with the semimajor axis and the rotation,
    [sendMessage] with the confirmation and [setState] closing the panel,
    and no other. *)
Theorem result_reports_resolution env scenario w :
  let r := select_callback env scenario w in
  (result r = true <-> exists p, findBody env (parent scenario) = Some p)
  /\ (result r = false <-> findBody env (parent scenario) = None)
  /\ (result r = false -> world r = w /\ calls r = [])
  /\ (result r = true ->
      List.length (calls r) = 4%nat /\ visible (world r) = false)
  /\ (result r = true ->
      exists p self,
        findBody env (parent scenario) = Some p
        /\ calls r
           = [ SetParent p;
               SetOrbitingVelocity (semimajor_axis scenario)
                 (scenario_rotation scenario) self;
               SendMessage ("Scenario " ++ title scenario ++ " Loaded!");
               SetState false ]).
Proof.
  cbv zeta.
  destruct (findBody env (parent scenario)) as [p |] eqn:Hfind.
  - rewrite (select_callback_resolved _ _ _ _ Hfind). unfold result. simpl.
    repeat split; intros; try discriminate; eauto.
  - rewrite (select_callback_unresolved _ _ _ Hfind). unfold result. simpl.
    repeat split; intros; try discriminate; auto.
    destruct H as [p Hp]. discriminate Hp.
Qed.

(** X2.  On a click with a resolvable parent [setParent] is the first call
    made, with the body [findBody] returned, and [setOrbitingVelocity] is the
    second, with the preset's semimajor axis and the callback's rotation:
    the body it is called on already has the new parent.  The two calls
    that follow are [sendMessage] and [setState]: neither [setParent] nor
    [setOrbitingVelocity] is called again, with any argument. *)
Theorem parent_set_before_orbit_call env scenario w p :
  findBody env (parent scenario) = Some p ->
  exists self rest,
    calls (select_callback env scenario w)
    = SetParent p
      :: SetOrbitingVelocity (semimajor_axis scenario)
           (scenario_rotation scenario) self
      :: rest
    /\ CelestialBody.parent self = Some p
    /\ rest = [ SendMessage ("Scenario " ++ title scenario ++ " Loaded!");
                SetState false ]
    /\ (forall b, ~ In (SetParent b) rest)
    /\ (forall a q s, ~ In (SetOrbitingVelocity a q s) rest).
Proof.
  intros Hsome. rewrite (select_callback_resolved _ _ _ _ Hsome).
  do 2 eexists. split; [reflexivity |]. split; [reflexivity |].
  split; [reflexivity |].
  split; [intros b | intros a q s]; simpl; intros [H | [H | []]];
    discriminate.
Qed.

Lemma parent_set_before_orbit_call_witness :
  exists self rest,
    calls (select_callback sample_env earth_orbit open_panel)
    = SetParent 3%nat
      :: SetOrbitingVelocity (10000 / 149597871)
           (scenario_rotation earth_orbit) self
      :: rest
    /\ CelestialBody.parent self = Some 3%nat
    /\ rest = [ SendMessage "Scenario Earth orbit Loaded!"; SetState false ]
    /\ (forall b, ~ In (SetParent b) rest)
    /\ (forall a q s, ~ In (SetOrbitingVelocity a q s) rest).
Proof.
  apply (parent_set_before_orbit_call sample_env earth_orbit open_panel 3%nat).
  reflexivity.
Defined.

(** X3.  With no [rotation] in the preset, the body is put in the XY plane
    at distance [semimajor_axis * (1 - eccentricity)] in the direction of
    the ascending node: at
    [(r * cos node, r * sin node, 0)], an omitted eccentricity or ascending
    node counting as 0. *)
Theorem default_orbit_position env scenario w p :
  findBody env (parent scenario) = Some p ->
  rotation scenario = None ->
  let e := match eccentricity scenario with Some e => e | None => 0 end in
  let r := semimajor_axis scenario * (1 - e) in
  let node := match ascending_node scenario with Some n => n | None => 0 end in
  forall a q self,
    In (SetOrbitingVelocity a q self) (calls (select_callback env scenario w)) ->
    CelestialBody.position self = Vector3.mk (r * cos node) (r * sin node) 0.
Proof.
  intros Hsome Hnone. cbv zeta. intros a q self Hin.
  change (match eccentricity scenario with Some e => e | None => 0 end)
    with (or_zero (eccentricity scenario)).
  change (match ascending_node scenario with Some n => n | None => 0 end)
    with (or_zero (ascending_node scenario)).
  destruct (orbit_call_inv _ _ _ _ _ _ _ Hsome Hin) as (_ & _ & ->).
  simpl. unfold orbit_position, scenario_rotation. rewrite Hnone.
  rewrite applyQuaternion_multiply.
  rewrite applyQuaternion_axisY, applyQuaternion_axisZ.
  unfold rotateZ, rotateY, Vector3.multiplyScalar. simpl.
  rewrite sin_minus, cos_minus, sin_PI2, cos_PI2, sin_PI, cos_PI.
  f_equal; ring.
Qed.

Lemma default_orbit_position_witness :
  CelestialBody.position (body_at_call earth_orbit 3%nat used_rocket)
  = Vector3.mk (10000 / 149597871 * (1 - 0) * cos 0)
      (10000 / 149597871 * (1 - 0) * sin 0) 0.
Proof.
  apply (default_orbit_position sample_env earth_orbit open_panel 3%nat
           eq_refl eq_refl (10000 / 149597871) (scenario_rotation earth_orbit)
           (body_at_call earth_orbit 3%nat used_rocket)).
  right. left. reflexivity.
Defined.

Lemma lengthSq_nonneg (q : Quaternion.t) : 0 <= Quaternion.lengthSq q.
Proof.
  unfold Quaternion.lengthSq.
  pose proof (Rle_0_sqr (Quaternion.x q)) as Hx.
  pose proof (Rle_0_sqr (Quaternion.y q)) as Hy.
  pose proof (Rle_0_sqr (Quaternion.z q)) as Hz.
  pose proof (Rle_0_sqr (Quaternion.w q)) as Hw.
  unfold Rsqr in *. lra.
Qed.

(** Rotating by any quaternion scales lengths by its squared norm. *)
Lemma applyQuaternion_length_scaled (v : Vector3.t) (q : Quaternion.t) :
  Vector3.length (applyQuaternion v q)
  = Quaternion.lengthSq q * Vector3.length v.
Proof.
  unfold Vector3.length. rewrite (applyQuaternion_lengthSq v q).
  pose proof (lengthSq_nonneg q) as Hq.
  assert (Hv : 0 <= Vector3.x v * Vector3.x v + Vector3.y v * Vector3.y v
                    + Vector3.z v * Vector3.z v).
  { pose proof (Rle_0_sqr (Vector3.x v)) as Hx.
    pose proof (Rle_0_sqr (Vector3.y v)) as Hy.
    pose proof (Rle_0_sqr (Vector3.z v)) as Hz.
    unfold Rsqr in *. lra. }
  rewrite sqrt_mult by (try apply Rmult_le_pos; assumption).
  rewrite sqrt_square by assumption. reflexivity.
Qed.

(** X4.  On a click with a resolvable parent the body's distance from the
    origin is the absolute value of [semimajor_axis * (1 - eccentricity)]
    multiplied by the squared norm of the rotation quaternion: a preset
    rotation that is not normalised stretches the orbit, and the default
    rotation, which is normalised, gives the absolute value itself. *)
Theorem position_magnitude_scaled env scenario w p :
  findBody env (parent scenario) = Some p ->
  let r := semimajor_axis scenario * (1 - or_zero (eccentricity scenario)) in
  forall a q self,
    In (SetOrbitingVelocity a q self) (calls (select_callback env scenario w)) ->
    Vector3.length (CelestialBody.position self)
    = Quaternion.lengthSq (scenario_rotation scenario) * Rabs r
    /\ (rotation scenario = None ->
        Vector3.length (CelestialBody.position self) = Rabs r).
Proof.
  intros Hsome. cbv zeta. intros a q self Hin.
  destruct (orbit_call_inv _ _ _ _ _ _ _ Hsome Hin) as (_ & _ & ->).
  simpl. unfold orbit_position.
  assert (Hlen : Vector3.length
                   (Vector3.multiplyScalar
                      (Vector3.mk 0 (1 - or_zero (eccentricity scenario)) 0)
                      (semimajor_axis scenario))
                 = Rabs (semimajor_axis scenario
                         * (1 - or_zero (eccentricity scenario)))).
  { unfold Vector3.length, Vector3.multiplyScalar. simpl.
    rewrite <- sqrt_Rsqr_abs. f_equal. unfold Rsqr. ring. }
  rewrite applyQuaternion_length_scaled, Hlen. split; [reflexivity |].
  intros Hnone. rewrite (scenario_rotation_default_unit _ Hnone). ring.
Qed.

Lemma position_magnitude_scaled_witness :
  Vector3.length
    (CelestialBody.position
       (body_at_call
          (mkScenario "Wide orbit" "earth" 1 (Some 3)
             (Some (Quaternion.mk 0 0 0 2)) None)
          3%nat used_rocket))
  = Quaternion.lengthSq (Quaternion.mk 0 0 0 2) * Rabs (1 * (1 - 3)).
Proof.
  apply (position_magnitude_scaled sample_env
           (mkScenario "Wide orbit" "earth" 1 (Some 3)
              (Some (Quaternion.mk 0 0 0 2)) None)
           open_panel 3%nat eq_refl 1 (Quaternion.mk 0 0 0 2)
           (body_at_call
              (mkScenario "Wide orbit" "earth" 1 (Some 3)
                 (Some (Quaternion.mk 0 0 0 2)) None)
              3%nat used_rocket)).
  right. left. reflexivity.
Defined.

(** X5.  The orientation the callback gives the body has the squared norm
    of the rotation quaternion, so it is a unit quaternion when the preset
    leaves the rotation out. *)
Theorem orientation_norm env scenario w p :
  findBody env (parent scenario) = Some p ->
  forall a q self,
    In (SetOrbitingVelocity a q self) (calls (select_callback env scenario w)) ->
    Quaternion.lengthSq (CelestialBody.quaternion self)
    = Quaternion.lengthSq (scenario_rotation scenario)
    /\ (rotation scenario = None ->
        Quaternion.lengthSq (CelestialBody.quaternion self) = 1).
Proof.
  intros Hsome a q self Hin.
  destruct (orbit_call_inv _ _ _ _ _ _ _ Hsome Hin) as (_ & _ & ->).
  simpl. rewrite clone_eq, lengthSq_multiply.
  rewrite lengthSq_AxisAngleQuaternion by ring.
  split; [ring |].
  intros Hnone. rewrite (scenario_rotation_default_unit _ Hnone). ring.
Qed.

Lemma orientation_norm_witness :
  Quaternion.lengthSq
    (CelestialBody.quaternion (body_at_call earth_orbit 3%nat used_rocket))
  = 1.
Proof.
  apply (proj2 (orientation_norm sample_env earth_orbit open_panel 3%nat
                  eq_refl (10000 / 149597871) (scenario_rotation earth_orbit)
                  (body_at_call earth_orbit 3%nat used_rocket)
                  (or_intror (or_introl eq_refl)))).
  reflexivity.
Defined.

(** X6.  The callback never writes the body's velocity itself:
    [setOrbitingVelocity] receives the body with the velocity it had before
    the click, and the velocity after the click is the one
    [setOrbitingVelocity] left. *)
Theorem velocity_left_to_initializer env scenario w p :
  findBody env (parent scenario) = Some p ->
  forall a q self,
    In (SetOrbitingVelocity a q self) (calls (select_callback env scenario w)) ->
    CelestialBody.velocity self = CelestialBody.velocity (select_obj w)
    /\ CelestialBody.velocity
         (select_obj (world (select_callback env scenario w)))
       = CelestialBody.velocity (setOrbitingVelocity env a q self).
Proof.
  intros Hsome a q self Hin.
  destruct (orbit_call_inv _ _ _ _ _ _ _ Hsome Hin) as (-> & -> & ->).
  rewrite (select_callback_resolved _ _ _ _ Hsome). split; reflexivity.
Qed.

Lemma velocity_left_to_initializer_witness :
  CelestialBody.velocity (body_at_call earth_orbit 3%nat used_rocket)
  = Vector3.mk 0 1 0
  /\ CelestialBody.velocity
       (select_obj (world (select_callback sample_env earth_orbit open_panel)))
     = CelestialBody.velocity
         (sample_setOrbitingVelocity (10000 / 149597871)
            (scenario_rotation earth_orbit)
            (body_at_call earth_orbit 3%nat used_rocket)).
Proof.
  apply (velocity_left_to_initializer sample_env earth_orbit open_panel 3%nat
           eq_refl (10000 / 149597871) (scenario_rotation earth_orbit)
           (body_at_call earth_orbit 3%nat used_rocket)).
  right. left. reflexivity.
Defined.

(** X7.  A successful click overwrites the body's pose: its whole outcome
    (result, body, panel state and calls) depends on the world before the
    click only through the body's velocity, total delta-v and ignition
    count, not through its parent, position, orientation or angular
    velocity, nor through the panel state. *)
Theorem click_overwrites_pose env scenario w1 w2 p :
  findBody env (parent scenario) = Some p ->
  CelestialBody.velocity (select_obj w1)
  = CelestialBody.velocity (select_obj w2) ->
  CelestialBody.totalDeltaV (select_obj w1)
  = CelestialBody.totalDeltaV (select_obj w2) ->
  CelestialBody.ignitionCount (select_obj w1)
  = CelestialBody.ignitionCount (select_obj w2) ->
  select_callback env scenario w1 = select_callback env scenario w2.
Proof.
  intros Hsome Hv Hd Hi.
  rewrite !(select_callback_resolved _ _ _ _ Hsome).
  unfold body_at_call. rewrite Hv, Hd, Hi. reflexivity.
Qed.

Lemma click_overwrites_pose_witness :
  select_callback sample_env earth_orbit open_panel
  = select_callback sample_env earth_orbit
      (mkWorld
         (CelestialBody.mk None (Vector3.mk 7 8 9) (Vector3.mk 0 1 0)
            (Quaternion.mk 1 0 0 0) Vector3.zero 5 2%Z)
         false).
Proof.
  apply (click_overwrites_pose sample_env earth_orbit open_panel
           (mkWorld
              (CelestialBody.mk None (Vector3.mk 7 8 9) (Vector3.mk 0 1 0)
                 (Quaternion.mk 1 0 0 0) Vector3.zero 5 2%Z)
              false)
           3%nat); reflexivity.
Defined.

(** X8.  A degenerate preset, with semimajor axis 0 or eccentricity 1, puts
    the body at the origin whatever the rotation. *)
Theorem degenerate_orbit_at_origin env scenario w p :
  findBody env (parent scenario) = Some p ->
  semimajor_axis scenario * (1 - or_zero (eccentricity scenario)) = 0 ->
  forall a q self,
    In (SetOrbitingVelocity a q self) (calls (select_callback env scenario w)) ->
    CelestialBody.position self = Vector3.zero.
Proof.
  intros Hsome Hzero a q self Hin.
  destruct (orbit_call_inv _ _ _ _ _ _ _ Hsome Hin) as (_ & _ & ->).
  simpl. unfold orbit_position, applyQuaternion, Vector3.multiplyScalar,
    Vector3.zero. simpl.
  rewrite (Rmult_comm (1 - or_zero (eccentricity scenario))), Hzero.
  f_equal; ring.
Qed.

Lemma degenerate_orbit_at_origin_witness :
  CelestialBody.position
    (body_at_call
       (mkScenario "Fall" "earth" 2 (Some 1) (Some (Quaternion.mk 0 3 0 4))
          None)
       3%nat used_rocket)
  = Vector3.zero.
Proof.
  apply (degenerate_orbit_at_origin sample_env
           (mkScenario "Fall" "earth" 2 (Some 1)
              (Some (Quaternion.mk 0 3 0 4)) None)
           open_panel 3%nat eq_refl)
    with (a := 2) (q := Quaternion.mk 0 3 0 4).
  - simpl. ring.
  - right. left. reflexivity.
Defined.

(** X9.  A preset that gives a [rotation] has its ascending node ignored:
    two presets that differ only in the ascending node behave alike. *)
Theorem given_rotation_ignores_node env t par a e q node1 node2 w :
  select_callback env (mkScenario t par a e (Some q) node1) w
  = select_callback env (mkScenario t par a e (Some q) node2) w.
Proof.
  destruct (findBody env par) as [p |] eqn:Hfind.
  - rewrite !(select_callback_resolved _ _ _ p) by exact Hfind. reflexivity.
  - rewrite !select_callback_unresolved by exact Hfind. reflexivity.
Qed.

(** X10.  The callback never opens the panel: if the panel is visible after
    it ran, it was visible before and the callback returned [false]. *)
Theorem click_never_opens_panel env scenario w :
  visible (world (select_callback env scenario w)) = true ->
  visible w = true /\ result (select_callback env scenario w) = false.
Proof.
  destruct (findBody env (parent scenario)) as [p |] eqn:Hfind.
  - rewrite (select_callback_resolved _ _ _ _ Hfind). simpl. discriminate.
  - rewrite (select_callback_unresolved _ _ _ Hfind). simpl. auto.
Qed.

Lemma click_never_opens_panel_witness :
  visible open_panel = true
  /\ result (select_callback sample_env pluto_orbit open_panel) = false.
Proof.
  apply (click_never_opens_panel sample_env pluto_orbit open_panel).
  reflexivity.
Defined.

(** ** The component over a sequence of events *)

Lemma messages_app (cs ds : list Call) :
  messages (cs ++ ds) = messages cs ++ messages ds.
Proof.
  induction cs as [| c cs IH]; [reflexivity |].
  destruct c; simpl; rewrite IH; reflexivity.
Qed.

Lemma perform_click env scenario w :
  perform env (Click scenario) w
  = (tt, world (select_callback env scenario w),
     calls (select_callback env scenario w)).
Proof.
  unfold perform, onClick, run_once, bind, ret.
  destruct (select_callback env scenario w) as [[b w1] c1]. simpl.
  rewrite app_nil_r. reflexivity.
Qed.

Lemma run_cons_world env a l w :
  world (run env (a :: l) w) = world (run env l (world (perform env a w))).
Proof.
  simpl. unfold bind.
  destruct (perform env a w) as [[u w1] c1].
  change (world (u, w1, c1)) with w1.
  destruct (run env l w1) as [[u2 w2] c2]. reflexivity.
Qed.

Lemma run_cons_calls env a l w :
  calls (run env (a :: l) w)
  = calls (perform env a w) ++ calls (run env l (world (perform env a w))).
Proof.
  simpl. unfold bind.
  destruct (perform env a w) as [[u w1] c1].
  change (world (u, w1, c1)) with w1.
  destruct (run env l w1) as [[u2 w2] c2]. reflexivity.
Qed.

Lemma perform_keeps_closed env a w :
  visible w = false -> opens a = false ->
  visible (world (perform env a w)) = false.
Proof.
  intros Hclosed Hopen. destruct a as [scenario | v | v].
  - rewrite perform_click. unfold world at 1. simpl.
    destruct (findBody env (parent scenario)) as [p |] eqn:Hfind.
    + rewrite (select_callback_resolved _ _ _ _ Hfind). reflexivity.
    + rewrite (select_callback_unresolved _ _ _ Hfind). exact Hclosed.
  - destruct v; [discriminate Hopen | reflexivity].
  - exact Hclosed.
Qed.

Lemma perform_keeps_body env a w :
  resolves env a = false ->
  select_obj (world (perform env a w)) = select_obj w
  /\ messages (calls (perform env a w)) = [].
Proof.
  intros Hres. destruct a as [scenario | v | v].
  - rewrite perform_click. unfold world at 1, calls at 1. simpl.
    simpl in Hres.
    destruct (findBody env (parent scenario)) as [p |] eqn:Hfind;
      [discriminate Hres |].
    rewrite (select_callback_unresolved _ _ _ Hfind). split; reflexivity.
  - split; reflexivity.
  - split; reflexivity.
Qed.

(** X11.  Over any sequence of clicks, container requests and [setVisible]
    calls, the messages sent are the confirmations of the clicks whose
    parent resolved, one for each and in their order: a click never sends
    two messages, and nothing else sends one. *)
Theorem one_message_per_resolved_click env l w :
  messages (calls (run env l w))
  = flat_map
      (fun a =>
         match a with
         | Click scenario =>
             if resolves env a
             then [("Scenario " ++ title scenario ++ " Loaded!")%string]
             else []
         | _ => []
         end) l.
Proof.
  revert w. induction l as [| a l IH]; intros w; [reflexivity |].
  rewrite run_cons_calls, messages_app, IH. simpl. f_equal.
  destruct a as [scenario | v | v]; [| reflexivity | reflexivity].
  rewrite perform_click. unfold calls at 1. simpl.
  destruct (findBody env (parent scenario)) as [p |] eqn:Hfind.
  - rewrite (select_callback_resolved _ _ _ _ Hfind). reflexivity.
  - rewrite (select_callback_unresolved _ _ _ Hfind). reflexivity.
Qed.

(** X12.  A closed panel stays closed as long as the container does not
    ask to show it: neither clicks nor [setVisible], whatever its argument,
    open it. *)
Theorem closed_panel_stays_closed env l w :
  visible w = false ->
  forallb (fun a => negb (opens a)) l = true ->
  visible (world (run env l w)) = false.
Proof.
  revert w. induction l as [| a l IH]; intros w Hclosed Hall.
  - exact Hclosed.
  - simpl in Hall. apply andb_prop in Hall. destruct Hall as [Ha Hl].
    rewrite run_cons_world. apply IH; [| exact Hl].
    apply perform_keeps_closed; [exact Hclosed |].
    destruct (opens a); [discriminate Ha | reflexivity].
Qed.

Lemma closed_panel_stays_closed_witness :
  visible
    (world
       (run sample_env
          [ Click earth_orbit; MethodSetVisible true; Click pluto_orbit;
            ContainerSetVisible false ]
          (mkWorld used_rocket initial_visible)))
  = false.
Proof.
  apply (closed_panel_stays_closed sample_env
           [ Click earth_orbit; MethodSetVisible true; Click pluto_orbit;
             ContainerSetVisible false ]
           (mkWorld used_rocket initial_visible)).
  - reflexivity.
  - reflexivity.
Defined.

(** X13.  The body changes only through a click whose parent resolves: a
    sequence of events without one leaves the body as it was and sends no
    message. *)
Theorem body_changes_only_by_resolved_click env l w :
  forallb (fun a => negb (resolves env a)) l = true ->
  select_obj (world (run env l w)) = select_obj w
  /\ messages (calls (run env l w)) = [].
Proof.
  revert w. induction l as [| a l IH]; intros w Hall.
  - split; reflexivity.
  - simpl in Hall. apply andb_prop in Hall. destruct Hall as [Ha Hl].
    assert (Hres : resolves env a = false)
      by (destruct (resolves env a); [discriminate Ha | reflexivity]).
    destruct (perform_keeps_body env a w Hres) as [Hbody Hmsg].
    destruct (IH (world (perform env a w)) Hl) as [IHbody IHmsg].
    rewrite run_cons_world, run_cons_calls, messages_app.
    rewrite IHbody, Hbody, Hmsg, IHmsg. split; reflexivity.
Qed.

Lemma body_changes_only_by_resolved_click_witness :
  select_obj
    (world
       (run sample_env
          [ Click pluto_orbit; ContainerSetVisible true;
            MethodSetVisible false ]
          open_panel))
  = used_rocket
  /\ messages
       (calls
          (run sample_env
             [ Click pluto_orbit; ContainerSetVisible true;
               MethodSetVisible false ]
             open_panel))
     = [].
Proof.
  apply (body_changes_only_by_resolved_click sample_env
           [ Click pluto_orbit; ContainerSetVisible true;
             MethodSetVisible false ]
           open_panel).
  reflexivity.
Defined.
